(** * reef-na: the weather feed ([internal/feeds/weather.go])

    A shallow embedding of package [feeds] and the properties of
    [FetchWeather]: coordinate resolution with its New York fallback, the
    request URL, the three failure modes and the translation of WMO weather
    codes.

    Go's [float64] is Rocq's primitive binary64 [float]; Go's [int] is [Z];
    the two package-level maps are [gmap]s held in the package state; the
    two results, a [WeatherData] pointer and an [error], are a pair of
    options, [None] standing for [nil]. [net/http] and [encoding/json] are
    parameters: any network and any decoder. *)

From Stdlib Require Import ZArith String Ascii List Lia.
From Stdlib Require Import Floats.PrimFloat Floats.SpecFloat Floats.FloatOps
  Floats.FloatAxioms.
From stdpp Require Import base option list strings gmap pretty.

Set Warnings "-inexact-float".

Local Open Scope Z_scope.
Local Open Scope string_scope.

(** ** Data model *)

(** [type WeatherData struct] *)
Record WeatherData : Type := mkWeatherData {
  Summary : string;
  TemperatureC : float;
  FeelsLikeC : float
}.

(** [type Coordinates struct] *)
Record Coordinates : Type := mkCoordinates {
  Lat : float;
  Lon : float
}.

(** The anonymous struct of the field [Current] of [OpenMeteoResponse]. *)
Record OpenMeteoCurrent : Type := mkCurrent {
  Temperature : float;
  ApparentTemperature : float;
  WeatherCode : Z
}.

(** [type OpenMeteoResponse struct] *)
Record OpenMeteoResponse : Type := mkOpenMeteoResponse {
  Current : OpenMeteoCurrent
}.

(** Go's zero value of [Coordinates], what indexing a map yields for a key
    it does not hold. *)
Definition zeroCoordinates : Coordinates :=
  {| Lat := 0%float; Lon := 0%float |}.

(** ** Errors

    [fmt.Errorf] builds an [*fmt.wrapError] when the format has a [%w] verb
    and an [*fmt.errorString]-like value otherwise. *)
Inductive error : Type :=
  | errorString (s : string)
  | wrapError (msg : string) (err : error).

(** The method [Error()]. *)
Definition Error (e : error) : string :=
  match e with
  | errorString s => s
  | wrapError msg _ => msg
  end.

(** [fmt.Errorf(prefix + "%w", err)] *)
Definition Errorf_w (prefix : string) (err : error) : error :=
  wrapError (prefix +:+ Error err) err.

(** [fmt.Errorf(prefix + "%d", n)] *)
Definition Errorf_d (prefix : string) (n : Z) : error :=
  errorString (prefix +:+ pretty n).

(** ** Package-level variables

    The literals of the two [var] declarations, in source order. *)
Definition naCountryCoordinates_literal : list (string * Coordinates) :=
  [ ("US", {| Lat := 40.7128%float; Lon := (-74.0060)%float |});  (* New York *)
    ("CA", {| Lat := 43.6532%float; Lon := (-79.3832)%float |});  (* Toronto *)
    ("MX", {| Lat := 19.4326%float; Lon := (-99.1332)%float |})   (* Mexico City *)
  ].

Definition weatherCodeDescriptions_literal : list (Z * string) :=
  [ (0, "Clear sky");
    (1, "Mainly clear");
    (2, "Partly cloudy");
    (3, "Overcast");
    (45, "Foggy");
    (48, "Depositing rime fog");
    (51, "Light drizzle");
    (53, "Moderate drizzle");
    (55, "Dense drizzle");
    (61, "Slight rain");
    (63, "Moderate rain");
    (65, "Heavy rain");
    (71, "Slight snow");
    (73, "Moderate snow");
    (75, "Heavy snow");
    (77, "Snow grains");
    (80, "Slight rain showers");
    (81, "Moderate rain showers");
    (82, "Violent rain showers");
    (85, "Slight snow showers");
    (86, "Heavy snow showers");
    (95, "Thunderstorm");
    (96, "Thunderstorm with slight hail");
    (99, "Thunderstorm with heavy hail")
  ].

(** The variables of package [feeds]. A Go map held in a package-level
    [var] can be written by any code of the package, so the maps are part
    of the state the functions run in. *)
Record Package : Type := mkPackage {
  naCountryCoordinates : gmap string Coordinates;
  weatherCodeDescriptions : gmap Z string
}.

(** The package after initialisation. *)
Definition feeds_init : Package :=
  {| naCountryCoordinates := list_to_map naCountryCoordinates_literal;
     weatherCodeDescriptions := list_to_map weatherCodeDescriptions_literal |}.

(** ** [fmt.Sprintf] with the verb [%.4f]

    [strconv] prints the exact value of the binary64 number, rounded to the
    requested number of decimals, ties to even; a sign is kept on negative
    zero and on negative values that round to zero. *)

(** [n / d] rounded to the nearest integer, ties to even ([0 <= n], [0 < d]). *)
Definition round_half_even (n d : Z) : Z :=
  let q := n / d in
  match (2 * (n mod d)) ?= d with
  | Lt => q
  | Gt => q + 1
  | Eq => if Z.even q then q else q + 1
  end.

(** [m * 2^e * 10^prec], rounded to an integer. *)
Definition scaled_decimal (prec : nat) (m : positive) (e : Z) : Z :=
  if (0 <=? e)%Z then Z.pos m * 2 ^ e * 10 ^ Z.of_nat prec
  else round_half_even (Z.pos m * 10 ^ Z.of_nat prec) (2 ^ (- e)).

Fixpoint zeros (n : nat) : string :=
  match n with
  | O => ""
  | S n' => "0" +:+ zeros n'
  end.

(** The decimal writing of [n / 10^prec] with [prec] decimals. *)
Definition fixed_point (prec : nat) (neg : bool) (n : Z) : string :=
  let frac := pretty (n mod 10 ^ Z.of_nat prec) in
  (if neg then "-" else "")
    +:+ pretty (n / 10 ^ Z.of_nat prec)
    +:+ "."
    +:+ zeros (prec - String.length frac) +:+ frac.

Definition Sprintf_f (prec : nat) (x : float) : string :=
  match Prim2SF x with
  | S754_nan => "NaN"
  | S754_infinity s => if s then "-Inf" else "+Inf"
  | S754_zero s => fixed_point prec s 0
  | S754_finite s m e => fixed_point prec s (scaled_decimal prec m e)
  end.

(** ** The pure steps of [FetchWeather] *)

(** Lines 70-74: the comma-ok lookup of the country, then the plain index
    expression at ["US"] (the zero value if even that key is missing). *)
Definition resolveCoordinates (p : Package) (country : string) : Coordinates :=
  match naCountryCoordinates p !! country with
  | Some coords => coords
  | None => default zeroCoordinates (naCountryCoordinates p !! "US")
  end.

(** Lines 77-80: the URL of the Open-Meteo request. *)
Definition requestURL (coords : Coordinates) : string :=
  "https://api.open-meteo.com/v1/forecast?latitude="
    +:+ Sprintf_f 4 (Lat coords)
    +:+ "&longitude="
    +:+ Sprintf_f 4 (Lon coords)
    +:+ "&current=temperature_2m,apparent_temperature,weather_code".

(** Lines 105-108: the comma-ok lookup of the weather code. *)
Definition describeWeatherCode (p : Package) (code : Z) : string :=
  match weatherCodeDescriptions p !! code with
  | Some description => description
  | None => "Unknown"
  end.

(** ** The world [FetchWeather] runs in *)

(** [http.Response], as far as it is read. *)
Record Response : Type := mkResponse {
  StatusCode : Z;
  Body : string
}.

(** [http.Client]; [Timeout] is a [time.Duration], in nanoseconds. *)
Record Client : Type := mkClient {
  Timeout : Z
}.

Definition Second : Z := 1000000000.
Definition StatusOK : Z := 200.

(** The package variables and the requests sent so far, oldest first. *)
Record World : Type := mkWorld {
  pkg : Package;
  sent : list string
}.

(** Computations that read and write the world. *)
Definition IO (A : Type) : Type := World -> A * World.

Definition ret {A} (a : A) : IO A := fun w => (a, w).

Definition bind {A B} (m : IO A) (k : A -> IO B) : IO B :=
  fun w => let (a, w') := m w in k a w'.

Notation "x <- m ;; k" := (bind m (fun x => k))
  (at level 100, m at next level, right associativity, only parsing).

(** Reading the package variables. *)
Definition package : IO Package := fun w => (pkg w, w).

(** The client [FetchWeather] builds. *)
Definition weatherClient : Client := {| Timeout := 10 * Second |}.

Section FetchWeather.

(** [net/http] and [encoding/json] are not code of this package. The
    network answers a request with an error (no connection, timeout) or
    a response, depending on the client, on what was sent before and on
    the URL; a body decodes to an error or to a response value. *)
Variable network : Client -> list string -> string -> error + Response.
Variable json_Decode : string -> error + OpenMeteoResponse.

(** [client.Get(url)]: one request on the wire. *)
Definition client_Get (client : Client) (url : string) : IO (error + Response) :=
  fun w => (network client (sent w) url,
            {| pkg := pkg w; sent := sent w ++ [url] |}).

(** [func FetchWeather(country string)], lines 68-115; each [return] of the
    source is a [ret] here. Closing the body of the response has no effect
    on the results and is left out. *)
Definition FetchWeather (country : string)
  : IO (option WeatherData * option error) :=
  p <- package ;;
  let coords := resolveCoordinates p country in
  let url := requestURL coords in
  let client := weatherClient in
  r <- client_Get client url ;;
  match r with
  | inl err =>
      ret (None, Some (Errorf_w "weather API call failed: " err))
  | inr resp =>
      if negb (StatusCode resp =? StatusOK)%Z then
        ret (None, Some (Errorf_d "weather API returned status " (StatusCode resp)))
      else
        match json_Decode (Body resp) with
        | inl err =>
            ret (None, Some (Errorf_w "failed to parse weather response: " err))
        | inr apiResp =>
            p' <- package ;;
            let description :=
              describeWeatherCode p' (WeatherCode (Current apiResp)) in
            ret (Some {| Summary := description;
                         TemperatureC := Temperature (Current apiResp);
                         FeelsLikeC := ApparentTemperature (Current apiResp) |},
                 None)
        end
  end.

End FetchWeather.

Arguments FetchWeather network json_Decode country _ : assert.

(** What [FetchWeather] returns once the network has answered [r]: lines
    89-114 read on their own, tied to [FetchWeather] by [FetchWeather_run]
    below. *)
Definition outcome (json_Decode : string -> error + OpenMeteoResponse)
    (p : Package) (r : error + Response) : option WeatherData * option error :=
  match r with
  | inl err => (None, Some (Errorf_w "weather API call failed: " err))
  | inr resp =>
      if negb (StatusCode resp =? StatusOK)%Z then
        (None, Some (Errorf_d "weather API returned status " (StatusCode resp)))
      else
        match json_Decode (Body resp) with
        | inl err =>
            (None, Some (Errorf_w "failed to parse weather response: " err))
        | inr apiResp =>
            (Some {| Summary := describeWeatherCode p (WeatherCode (Current apiResp));
                     TemperatureC := Temperature (Current apiResp);
                     FeelsLikeC := ApparentTemperature (Current apiResp) |},
             None)
        end
  end.

(** ** Vocabulary of the properties *)

(** The three cities of the table. *)
Definition newYork : Coordinates :=
  {| Lat := 40.7128%float; Lon := (-74.0060)%float |}.
Definition toronto : Coordinates :=
  {| Lat := 43.6532%float; Lon := (-79.3832)%float |}.
Definition mexicoCity : Coordinates :=
  {| Lat := 19.4326%float; Lon := (-99.1332)%float |}.

(** The invariant of [Coordinates]: both comparisons of each bound hold, so
    a NaN is out of range. *)
Definition inRange (c : Coordinates) : bool :=
  ((-90 <=? Lat c)%float && (Lat c <=? 90)%float)
  && ((-180 <=? Lon c)%float && (Lon c <=? 180)%float).

(** *** Decimal numbers in a URL *)

Definition is_digit (a : ascii) : bool :=
  (48 <=? nat_of_ascii a)%nat && (nat_of_ascii a <=? 57)%nat.

Fixpoint all_digits (s : string) : bool :=
  match s with
  | EmptyString => true
  | String a s' => is_digit a && all_digits s'
  end.

(** The text before and after the first dot of [s]. *)
Fixpoint split_at_dot (s : string) : option (string * string) :=
  match s with
  | EmptyString => None
  | String a s' =>
      if Ascii.eqb a "." then Some (EmptyString, s')
      else match split_at_dot s' with
           | Some (i, f) => Some (String a i, f)
           | None => None
           end
  end.

(** A decimal number written with exactly four digits after the dot: an
    optional minus sign, at least one digit, a dot, four digits. *)
Definition four_decimals (s : string) : bool :=
  let unsigned := match s with String "-" s' => s' | _ => s end in
  match split_at_dot unsigned with
  | Some (i, f) =>
      negb (String.eqb i "") && all_digits i
      && (String.length f =? 4)%nat && all_digits f
  | None => false
  end.

(** *** A network and a decoder to run [FetchWeather] on *)

(** A server that answers every request with the same status and body, and
    the decoder's answers on the bodies used below: the value the mock
    server of the tests encodes, and the error of an empty body. *)
Definition answering (status : Z) (body : string)
  : Client -> list string -> string -> error + Response :=
  fun _ _ _ => inr {| StatusCode := status; Body := body |}.

Definition unreachable : Client -> list string -> string -> error + Response :=
  fun _ _ _ => inl (errorString "dial tcp: i/o timeout").

Definition mockResponse : OpenMeteoResponse :=
  {| Current := {| Temperature := 25.5%float;
                   ApparentTemperature := 24.0%float;
                   WeatherCode := 0 |} |}.

Definition mock_Decode (body : string) : error + OpenMeteoResponse :=
  if String.eqb body "" then inl (errorString "EOF") else inr mockResponse.

Definition start : World := {| pkg := feeds_init; sent := [] |}.

(** *** The four ways a run can end *)

(** The answer of the network sorts the outcomes. *)
Inductive outcome_spec (json_Decode : string -> error + OpenMeteoResponse)
    (p : Package) (r : error + Response)
  : option WeatherData * option error -> Prop :=
  | outcome_is_transport err :
      r = inl err ->
      outcome_spec json_Decode p r
        (None, Some (Errorf_w "weather API call failed: " err))
  | outcome_is_status resp :
      r = inr resp -> StatusCode resp <> 200 ->
      outcome_spec json_Decode p r
        (None, Some (Errorf_d "weather API returned status " (StatusCode resp)))
  | outcome_is_decode resp err :
      r = inr resp -> StatusCode resp = 200 ->
      json_Decode (Body resp) = inl err ->
      outcome_spec json_Decode p r
        (None, Some (Errorf_w "failed to parse weather response: " err))
  | outcome_is_data resp apiResp :
      r = inr resp -> StatusCode resp = 200 ->
      json_Decode (Body resp) = inr apiResp ->
      outcome_spec json_Decode p r
        (Some {| Summary := describeWeatherCode p (WeatherCode (Current apiResp));
                 TemperatureC := Temperature (Current apiResp);
                 FeelsLikeC := ApparentTemperature (Current apiResp) |},
         None).

(** *** Runs of several calls *)

(** The worlds that [n] calls of [FetchWeather] lead to, whatever the
    country asked for and whatever the network and the decoder are at each
    call. *)
Inductive calls : nat -> World -> World -> Prop :=
  | calls_O w : calls 0 w w
  | calls_S n w w' network json_Decode country :
      calls n w w' ->
      calls (S n) w (snd (FetchWeather network json_Decode country w')).

(** The three URLs of the initial table. *)
Definition knownURLs : list string :=
  [ "https://api.open-meteo.com/v1/forecast?latitude=40.7128&longitude=-74.0060&current=temperature_2m,apparent_temperature,weather_code";
    "https://api.open-meteo.com/v1/forecast?latitude=43.6532&longitude=-79.3832&current=temperature_2m,apparent_temperature,weather_code";
    "https://api.open-meteo.com/v1/forecast?latitude=19.4326&longitude=-99.1332&current=temperature_2m,apparent_temperature,weather_code" ].

(** *** The failures, as a caller tells them apart *)

Inductive Failure : Type :=
  | Transport
  | HTTPStatus (code : Z)
  | Decode.

(** The failure, if any, that the answer [r] of the network leads to: the
    three [return nil, ...] of lines 89-102, in their order. *)
Definition failure_of (json_Decode : string -> error + OpenMeteoResponse)
    (r : error + Response) : option Failure :=
  match r with
  | inl _ => Some Transport
  | inr resp =>
      if negb (StatusCode resp =? StatusOK)%Z then Some (HTTPStatus (StatusCode resp))
      else match json_Decode (Body resp) with
           | inl _ => Some Decode
           | inr _ => None
           end
  end.

(** The message of the error of a failure. *)
Definition failure_message (f : Failure) (msg : string) : Prop :=
  match f with
  | Transport => exists err, msg = "weather API call failed: " +:+ Error err
  | HTTPStatus code => msg = "weather API returned status " +:+ pretty code
  | Decode => exists err, msg = "failed to parse weather response: " +:+ Error err
  end.

(** *** The checks of the tests

    The conditions under which [TestAllNACountriesHaveReasonableCoordinates]
    and [TestCoordinatesStructure] report an error. *)
Definition outsideNorthAmerica (coords : Coordinates) : bool :=
  ((Lat coords <? 10)%float || (60 <? Lat coords)%float)
  || ((Lon coords <? -125)%float || (-60 <? Lon coords)%float).

Definition outsideNewYork (newYork : Coordinates) : bool :=
  ((Lat newYork <? 38)%float || (42 <? Lat newYork)%float)
  || ((Lon newYork <? -76)%float || (-72 <? Lon newYork)%float).

(** The errors the body of the subtest of
    [TestAllCountriesHaveValidCoordinates] reports for one entry; [%f]
    prints six decimals. *)
Definition invalidCoordinates (country : string) (coords : Coordinates)
  : list string :=
  (if (Lat coords <? -90)%float || (90 <? Lat coords)%float
   then [country +:+ ": invalid latitude " +:+ Sprintf_f 6 (Lat coords)]
   else [])
  ++ (if (Lon coords <? -180)%float || (180 <? Lon coords)%float
      then [country +:+ ": invalid longitude " +:+ Sprintf_f 6 (Lon coords)]
      else []).

(** [TestAllCountriesHaveValidCoordinates]: the errors reported over the
    entries of the table, in the order the map is ranged over. *)
Definition TestAllCountriesHaveValidCoordinates (p : Package) : list string :=
  flat_map (fun kv => invalidCoordinates kv.1 kv.2)
    (map_to_list (naCountryCoordinates p)).

(** A table whose one entry has no latitude that is a number. *)
Definition nanPackage : Package :=
  {| naCountryCoordinates := {[ "US" := {| Lat := nan; Lon := 0%float |} ]};
     weatherCodeDescriptions := ∅ |}.

(** A network that answers only a client whose timeout is ten seconds. *)
Definition patient (c : Client) (log : list string) (url : string)
  : error + Response :=
  if (Timeout c =? 10000000000)%Z then answering 200 "{}" c log url
  else unreachable c log url.

(** A decoder that knows one body only. *)
Definition strict_Decode (body : string) : error + OpenMeteoResponse :=
  if String.eqb body "{}" then inr mockResponse
  else inl (errorString "unexpected end of JSON input").

(** *** The round trip of [WeatherData] through JSON *)








(** * Properties *)

(** ** The two tables *)

Lemma naCountryCoordinates_keys_NoDup :
  NoDup (naCountryCoordinates_literal.*1).
Proof. apply (bool_decide_unpack _). vm_compute. reflexivity. Qed.

Lemma weatherCodeDescriptions_keys_NoDup :
  NoDup (weatherCodeDescriptions_literal.*1).
Proof. apply (bool_decide_unpack _). vm_compute. reflexivity. Qed.

(** ** [FetchWeather], step by step *)

(** One run of [FetchWeather]: a single request, to the URL of the resolved
    coordinates, then [outcome] on its answer. *)
Lemma FetchWeather_run network json_Decode country w :
  let url := requestURL (resolveCoordinates (pkg w) country) in
  FetchWeather network json_Decode country w =
    (outcome json_Decode (pkg w) (network weatherClient (sent w) url),
     {| pkg := pkg w; sent := sent w ++ [url] |}).
Proof.
  cbv beta iota zeta delta [FetchWeather bind package client_Get ret outcome].
  destruct (network _ _ _) as [err|resp]; [reflexivity|].
  destruct (negb _); [reflexivity|].
  destruct (json_Decode _) as [err|apiResp]; reflexivity.
Qed.

(** [FetchWeather] only reads the package variables. *)
Lemma FetchWeather_pkg network json_Decode country w :
  pkg (snd (FetchWeather network json_Decode country w)) = pkg w.
Proof. rewrite FetchWeather_run. reflexivity. Qed.

(** The package variables of [feeds_init], as maps built from the literals. *)
Lemma feeds_init_coordinates :
  naCountryCoordinates feeds_init = list_to_map naCountryCoordinates_literal.
Proof. reflexivity. Qed.

Lemma feeds_init_descriptions :
  weatherCodeDescriptions feeds_init = list_to_map weatherCodeDescriptions_literal.
Proof. reflexivity. Qed.

(** C3, as the spec counts it, fails: the weather-code table does not have
    23 entries. *)
Lemma weatherCodeDescriptions_size_not_23 :
  size (weatherCodeDescriptions feeds_init) <> 23%nat.
Proof.
  rewrite feeds_init_descriptions.
  rewrite (map_size_list_to_map _ weatherCodeDescriptions_keys_NoDup).
  discriminate.
Qed.

(** C3 (amended): the country table holds exactly 3 entries and the
    weather-code table exactly 24, one per line of its literal; and
    [FetchWeather] leaves both package variables as it found them, whatever
    the network and the decoder answer. *)
Theorem tables_size_and_constant :
  size (naCountryCoordinates feeds_init) = 3%nat
  /\ size (weatherCodeDescriptions feeds_init) = 24%nat
  /\ dom (naCountryCoordinates feeds_init) = list_to_set ["US"; "CA"; "MX"]
  /\ forall network json_Decode country w,
       pkg (snd (FetchWeather network json_Decode country w)) = pkg w.
Proof.
  rewrite feeds_init_coordinates, feeds_init_descriptions.
  split; [|split; [|split]].
  - rewrite (map_size_list_to_map _ naCountryCoordinates_keys_NoDup).
    reflexivity.
  - rewrite (map_size_list_to_map _ weatherCodeDescriptions_keys_NoDup).
    reflexivity.
  - rewrite dom_list_to_map_L. reflexivity.
  - apply FetchWeather_pkg.
Qed.

(** ** Coordinate resolution *)

Lemma lookup_coordinates country c :
  naCountryCoordinates feeds_init !! country = Some c <->
  (country, c) ∈ naCountryCoordinates_literal.
Proof.
  rewrite feeds_init_coordinates. symmetry.
  apply elem_of_list_to_map, naCountryCoordinates_keys_NoDup.
Qed.

Lemma lookup_coordinates_cases country c :
  naCountryCoordinates feeds_init !! country = Some c ->
  c = newYork \/ c = toronto \/ c = mexicoCity.
Proof.
  rewrite lookup_coordinates. unfold naCountryCoordinates_literal.
  rewrite !elem_of_cons, elem_of_nil.
  intros [H|[H|[H|[]]]]; injection H as _ ->; auto.
Qed.

Lemma lookup_US : naCountryCoordinates feeds_init !! "US" = Some newYork.
Proof. apply lookup_coordinates. unfold naCountryCoordinates_literal. left. Qed.

Lemma lookup_CA : naCountryCoordinates feeds_init !! "CA" = Some toronto.
Proof.
  apply lookup_coordinates. unfold naCountryCoordinates_literal.
  right; left.
Qed.

Lemma lookup_MX : naCountryCoordinates feeds_init !! "MX" = Some mexicoCity.
Proof.
  apply lookup_coordinates. unfold naCountryCoordinates_literal.
  right; right; left.
Qed.

Lemma lookup_XX : naCountryCoordinates feeds_init !! "XX" = None.
Proof.
  rewrite feeds_init_coordinates. apply not_elem_of_list_to_map.
  unfold naCountryCoordinates_literal; cbn [fmap list_fmap fst].
  rewrite !not_elem_of_cons. repeat split; try discriminate. apply not_elem_of_nil.
Qed.

Lemma resolveCoordinates_found p country c :
  naCountryCoordinates p !! country = Some c -> resolveCoordinates p country = c.
Proof. unfold resolveCoordinates. intros ->. reflexivity. Qed.

Lemma resolveCoordinates_fallback p country :
  naCountryCoordinates p !! country = None ->
  resolveCoordinates p country = resolveCoordinates p "US".
Proof.
  unfold resolveCoordinates. intros ->.
  destruct (naCountryCoordinates p !! "US"); reflexivity.
Qed.

Lemma resolveCoordinates_US : resolveCoordinates feeds_init "US" = newYork.
Proof. apply resolveCoordinates_found, lookup_US. Qed.

Lemma resolveCoordinates_cases country :
  resolveCoordinates feeds_init country = newYork
  \/ resolveCoordinates feeds_init country = toronto
  \/ resolveCoordinates feeds_init country = mexicoCity.
Proof.
  destruct (naCountryCoordinates feeds_init !! country) as [c|] eqn:E.
  - rewrite (resolveCoordinates_found _ _ _ E).
    apply (lookup_coordinates_cases _ _ E).
  - left. rewrite (resolveCoordinates_fallback _ _ E).
    apply resolveCoordinates_US.
Qed.

(** C1: coordinate resolution is a total function; a country of the table
    resolves to its own entry (US, CA and MX to New York, Toronto and Mexico
    City), a country outside the table, such as XX, resolves to the
    coordinates of US, and [FetchWeather] then runs exactly as it does for
    US: an unknown country is no error of its own. *)
Theorem resolveCoordinates_total (country : string) :
  (forall c, naCountryCoordinates feeds_init !! country = Some c ->
             resolveCoordinates feeds_init country = c)
  /\ (naCountryCoordinates feeds_init !! country = None ->
      resolveCoordinates feeds_init country
        = {| Lat := 40.7128%float; Lon := (-74.0060)%float |}
      /\ resolveCoordinates feeds_init country = resolveCoordinates feeds_init "US"
      /\ forall network json_Decode log,
           FetchWeather network json_Decode country {| pkg := feeds_init; sent := log |}
           = FetchWeather network json_Decode "US" {| pkg := feeds_init; sent := log |})
  /\ resolveCoordinates feeds_init "US"
       = {| Lat := 40.7128%float; Lon := (-74.0060)%float |}
  /\ resolveCoordinates feeds_init "CA"
       = {| Lat := 43.6532%float; Lon := (-79.3832)%float |}
  /\ resolveCoordinates feeds_init "MX"
       = {| Lat := 19.4326%float; Lon := (-99.1332)%float |}
  /\ resolveCoordinates feeds_init "XX"
       = {| Lat := 40.7128%float; Lon := (-74.0060)%float |}.
Proof.
  repeat apply conj.
  - intros c. apply resolveCoordinates_found.
  - intros E. pose proof (resolveCoordinates_fallback _ _ E) as F.
    split; [|split].
    + rewrite F. apply resolveCoordinates_US.
    + exact F.
    + intros network json_Decode log.
      rewrite !FetchWeather_run. cbn [pkg sent]. rewrite F. reflexivity.
  - apply resolveCoordinates_US.
  - apply resolveCoordinates_found, lookup_CA.
  - apply resolveCoordinates_found, lookup_MX.
  - rewrite (resolveCoordinates_fallback _ _ lookup_XX).
    apply resolveCoordinates_US.
Qed.

(** C1 at work: CA is in the table, ZZ is not. *)
Lemma resolveCoordinates_total_witness :
  resolveCoordinates feeds_init "CA" = toronto
  /\ resolveCoordinates feeds_init "ZZ" = newYork.
Proof.
  split.
  - apply (proj1 (resolveCoordinates_total "CA")). apply lookup_CA.
  - apply (proj1 (proj2 (resolveCoordinates_total "ZZ"))). reflexivity.
Defined.

(** C8: whatever the country, known or not, the resolved coordinates have a
    latitude within [-90, 90] and a longitude within [-180, 180]; so has
    every entry of the table. *)
Theorem resolveCoordinates_inRange (country : string) :
  inRange (resolveCoordinates feeds_init country) = true
  /\ map_Forall (fun _ c => inRange c = true) (naCountryCoordinates feeds_init).
Proof.
  split.
  - destruct (resolveCoordinates_cases country) as [->|[->| ->]]; reflexivity.
  - intros k c E.
    destruct (lookup_coordinates_cases _ _ E) as [->|[->| ->]]; reflexivity.
Qed.

(** ** Weather codes *)

Lemma lookup_descriptions code d :
  weatherCodeDescriptions feeds_init !! code = Some d <->
  (code, d) ∈ weatherCodeDescriptions_literal.
Proof.
  rewrite feeds_init_descriptions. symmetry.
  apply elem_of_list_to_map, weatherCodeDescriptions_keys_NoDup.
Qed.

Lemma lookup_descriptions_None code :
  weatherCodeDescriptions feeds_init !! code = None <->
  code ∉ weatherCodeDescriptions_literal.*1.
Proof.
  rewrite feeds_init_descriptions. symmetry. apply not_elem_of_list_to_map.
Qed.

Lemma describeWeatherCode_found p code d :
  weatherCodeDescriptions p !! code = Some d -> describeWeatherCode p code = d.
Proof. unfold describeWeatherCode. intros ->. reflexivity. Qed.

Lemma describeWeatherCode_absent p code :
  weatherCodeDescriptions p !! code = None ->
  describeWeatherCode p code = "Unknown".
Proof. unfold describeWeatherCode. intros ->. reflexivity. Qed.



(** C4: the translation of a weather code is a total function; a code of the
    table yields the description written next to it in the literal (0 gives
    Clear sky, 61 gives Slight rain), and a code outside the table, such as
    999, yields the string Unknown. *)
Theorem describeWeatherCode_total (code : Z) :
  (forall d, weatherCodeDescriptions feeds_init !! code = Some d ->
             describeWeatherCode feeds_init code = d)
  /\ (forall d, (code, d) ∈ weatherCodeDescriptions_literal ->
                describeWeatherCode feeds_init code = d)
  /\ (weatherCodeDescriptions feeds_init !! code = None ->
      describeWeatherCode feeds_init code = "Unknown")
  /\ (code ∉ weatherCodeDescriptions_literal.*1 ->
      describeWeatherCode feeds_init code = "Unknown")
  /\ describeWeatherCode feeds_init 0 = "Clear sky"
  /\ describeWeatherCode feeds_init 61 = "Slight rain"
  /\ describeWeatherCode feeds_init 999 = "Unknown".
Proof.
  repeat apply conj.
  - intros d. apply describeWeatherCode_found.
  - intros d H. apply describeWeatherCode_found, lookup_descriptions, H.
  - apply describeWeatherCode_absent.
  - intros H. apply describeWeatherCode_absent, lookup_descriptions_None, H.
  - apply describeWeatherCode_found, lookup_descriptions.
    unfold weatherCodeDescriptions_literal. left.
  - apply describeWeatherCode_found, lookup_descriptions.
    unfold weatherCodeDescriptions_literal. do 9 right. left.
  - apply describeWeatherCode_absent, lookup_descriptions_None.
    apply (bool_decide_unpack _). vm_compute. reflexivity.
Qed.

(** C4 at work: 95 is in the table, 4 and -1 are not. *)
Lemma describeWeatherCode_total_witness :
  describeWeatherCode feeds_init 95 = "Thunderstorm"
  /\ describeWeatherCode feeds_init 4 = "Unknown"
  /\ describeWeatherCode feeds_init (-1) = "Unknown".
Proof.
  repeat apply conj.
  - apply (proj1 (describeWeatherCode_total 95)). reflexivity.
  - apply (proj1 (proj2 (proj2 (describeWeatherCode_total 4)))). reflexivity.
  - apply (proj1 (proj2 (proj2 (describeWeatherCode_total (-1))))). reflexivity.
Defined.

(** ** The request URL *)

(** C7: whatever the country and whatever was sent before, [FetchWeather]
    sends one request, to the forecast endpoint, whose query carries the
    resolved latitude and longitude, each written with exactly four decimal
    digits, and the parameter current with the three requested fields; for
    US, CA and MX the URL is the one spelled out. *)
Theorem FetchWeather_requestURL network json_Decode (country : string)
    (log : list string) :
  (exists lat lon,
     sent (snd (FetchWeather network json_Decode country
                  {| pkg := feeds_init; sent := log |}))
     = (log ++ ["https://api.open-meteo.com/v1/forecast?latitude=" +:+ lat
                  +:+ "&longitude=" +:+ lon
                  +:+ "&current=temperature_2m,apparent_temperature,weather_code"])%list
     /\ lat = Sprintf_f 4 (Lat (resolveCoordinates feeds_init country))
     /\ lon = Sprintf_f 4 (Lon (resolveCoordinates feeds_init country))
     /\ four_decimals lat = true
     /\ four_decimals lon = true)
  /\ requestURL (resolveCoordinates feeds_init "US")
     = "https://api.open-meteo.com/v1/forecast?latitude=40.7128&longitude=-74.0060&current=temperature_2m,apparent_temperature,weather_code"
  /\ requestURL (resolveCoordinates feeds_init "CA")
     = "https://api.open-meteo.com/v1/forecast?latitude=43.6532&longitude=-79.3832&current=temperature_2m,apparent_temperature,weather_code"
  /\ requestURL (resolveCoordinates feeds_init "MX")
     = "https://api.open-meteo.com/v1/forecast?latitude=19.4326&longitude=-99.1332&current=temperature_2m,apparent_temperature,weather_code".
Proof.
  repeat apply conj.
  - exists (Sprintf_f 4 (Lat (resolveCoordinates feeds_init country))),
           (Sprintf_f 4 (Lon (resolveCoordinates feeds_init country))).
    rewrite FetchWeather_run. cbn [snd sent pkg].
    repeat apply conj; try reflexivity;
      destruct (resolveCoordinates_cases country) as [->|[->| ->]];
      vm_compute; reflexivity.
  - rewrite resolveCoordinates_US. vm_compute. reflexivity.
  - rewrite (resolveCoordinates_found _ _ _ lookup_CA). vm_compute. reflexivity.
  - rewrite (resolveCoordinates_found _ _ _ lookup_MX). vm_compute. reflexivity.
Qed.

(** ** Outcomes of [FetchWeather] *)

Lemma outcome_transport json_Decode p err :
  outcome json_Decode p (inl err)
  = (None, Some (Errorf_w "weather API call failed: " err)).
Proof. reflexivity. Qed.

Lemma outcome_status json_Decode p resp :
  StatusCode resp <> 200 ->
  outcome json_Decode p (inr resp)
  = (None, Some (Errorf_d "weather API returned status " (StatusCode resp))).
Proof.
  intros H. unfold outcome, StatusOK.
  destruct (Z.eqb_spec (StatusCode resp) 200) as [E|_]; [contradiction|].
  reflexivity.
Qed.

Lemma outcome_ok json_Decode p resp :
  StatusCode resp = 200 ->
  outcome json_Decode p (inr resp)
  = match json_Decode (Body resp) with
    | inl err => (None, Some (Errorf_w "failed to parse weather response: " err))
    | inr apiResp =>
        (Some {| Summary := describeWeatherCode p (WeatherCode (Current apiResp));
                 TemperatureC := Temperature (Current apiResp);
                 FeelsLikeC := ApparentTemperature (Current apiResp) |},
         None)
    end.
Proof. intros H. unfold outcome, StatusOK. rewrite H. reflexivity. Qed.

Lemma outcome_cases json_Decode p r :
  outcome_spec json_Decode p r (outcome json_Decode p r).
Proof.
  destruct r as [err|resp].
  - rewrite outcome_transport. by constructor.
  - destruct (decide (StatusCode resp = 200)) as [E|E].
    + rewrite (outcome_ok _ _ _ E).
      destruct (json_Decode (Body resp)) as [err|apiResp] eqn:D.
      * by eapply outcome_is_decode.
      * by eapply outcome_is_data.
    + rewrite (outcome_status _ _ _ E). by eapply outcome_is_status.
Qed.

Lemma Errorf_w_nonempty a prefix err : Error (Errorf_w (String a prefix) err) <> "".
Proof. discriminate. Qed.

Lemma Errorf_d_nonempty a prefix n : Error (Errorf_d (String a prefix) n) <> "".
Proof. discriminate. Qed.

(** C2, as the spec states it, fails: a server that answers 201, a status of
    the 2xx class, with a body that decodes, gets the status error; the body
    is never decoded. *)
Lemma FetchWeather_status_201 :
  200 <= 201 < 300
  /\ mock_Decode "{}" = inr mockResponse
  /\ fst (FetchWeather (answering 201 "{}") mock_Decode "US" start)
     = (None, Some (errorString "weather API returned status 201")).
Proof. repeat apply conj; try lia; vm_compute; reflexivity. Qed.

(** C2 (amended): [FetchWeather] returns the status error exactly when the
    request was answered and the status of the answer is not 200; with
    status 200, and only then, the body is decoded and the result is the
    one of the decoding. *)
Theorem FetchWeather_http_status network json_Decode (country : string)
    (w : World) :
  let url := requestURL (resolveCoordinates (pkg w) country) in
  let out := fst (FetchWeather network json_Decode country w) in
  ((exists code,
      out = (None, Some (Errorf_d "weather API returned status " code)))
   <-> (exists resp,
          network weatherClient (sent w) url = inr resp
          /\ StatusCode resp <> 200))
  /\ (forall resp,
        network weatherClient (sent w) url = inr resp ->
        StatusCode resp <> 200 ->
        out = (None, Some (Errorf_d "weather API returned status " (StatusCode resp))))
  /\ (forall resp,
        network weatherClient (sent w) url = inr resp ->
        StatusCode resp = 200 ->
        out = match json_Decode (Body resp) with
              | inl err =>
                  (None, Some (Errorf_w "failed to parse weather response: " err))
              | inr apiResp =>
                  (Some {| Summary := describeWeatherCode (pkg w)
                                        (WeatherCode (Current apiResp));
                           TemperatureC := Temperature (Current apiResp);
                           FeelsLikeC := ApparentTemperature (Current apiResp) |},
                   None)
              end).
Proof.
  intros url out. subst out. rewrite FetchWeather_run. cbn [fst]. fold url.
  split; [|split].
  - split.
    + intros [code Hcode].
      destruct (outcome_cases json_Decode (pkg w)
                  (network weatherClient (sent w) url)) as [err E|resp E S|resp err E S D|resp a E S D];
        try discriminate Hcode.
      exists resp. auto.
    + intros (resp & E & S). exists (StatusCode resp).
      rewrite E. apply outcome_status, S.
  - intros resp E S. rewrite E. apply outcome_status, S.
  - intros resp E S. rewrite E. apply outcome_ok, S.
Qed.

(** C2 (amended) at work: a 500 is a status error, a 200 with the body of
    the mock server is decoded. *)
Lemma FetchWeather_http_status_witness :
  fst (FetchWeather (answering 500 "oops") mock_Decode "CA" start)
    = (None, Some (errorString "weather API returned status 500"))
  /\ fst (FetchWeather (answering 200 "{}") mock_Decode "CA" start)
    = (Some {| Summary := "Clear sky"; TemperatureC := 25.5%float;
               FeelsLikeC := 24.0%float |}, None).
Proof.
  split.
  - apply (proj1 (proj2 (FetchWeather_http_status
             (answering 500 "oops") mock_Decode "CA" start))
             {| StatusCode := 500; Body := "oops" |}); [reflexivity|discriminate].
  - apply (proj2 (proj2 (FetchWeather_http_status
             (answering 200 "{}") mock_Decode "CA" start))
             {| StatusCode := 200; Body := "{}" |}); reflexivity.
Defined.

(** C5: when [FetchWeather] returns data, the request was answered with
    status 200 and a body that decoded; the summary is the translation of
    the decoded weather code, the two temperatures are the decoded values
    themselves, and no error comes with the data. *)
Theorem FetchWeather_success network json_Decode (country : string)
    (w : World) (data : WeatherData) (oerr : option error) :
  fst (FetchWeather network json_Decode country w) = (Some data, oerr) ->
  oerr = None
  /\ exists resp apiResp,
       network weatherClient (sent w)
         (requestURL (resolveCoordinates (pkg w) country)) = inr resp
       /\ StatusCode resp = 200
       /\ json_Decode (Body resp) = inr apiResp
       /\ Summary data
          = describeWeatherCode (pkg w) (WeatherCode (Current apiResp))
       /\ TemperatureC data = Temperature (Current apiResp)
       /\ FeelsLikeC data = ApparentTemperature (Current apiResp).
Proof.
  rewrite FetchWeather_run. cbn [fst]. intros H.
  destruct (outcome_cases json_Decode (pkg w)
              (network weatherClient (sent w)
                 (requestURL (resolveCoordinates (pkg w) country))))
    as [err E|resp E S|resp err E S D|resp a E S D];
    try discriminate H.
  injection H as <- <-. split; [reflexivity|].
  exists resp, a. rewrite E. auto 10.
Qed.

(** C5 at work: the answer of the mock server, 25.5 and 24.0 degrees with
    code 0, comes back as Clear sky with the same two values. *)
Lemma FetchWeather_success_witness :
  exists resp apiResp,
    answering 200 "{}" weatherClient []
      (requestURL (resolveCoordinates feeds_init "MX")) = inr resp
    /\ StatusCode resp = 200
    /\ mock_Decode (Body resp) = inr apiResp
    /\ "Clear sky" = describeWeatherCode feeds_init (WeatherCode (Current apiResp))
    /\ 25.5%float = Temperature (Current apiResp)
    /\ 24.0%float = ApparentTemperature (Current apiResp).
Proof.
  apply (FetchWeather_success (answering 200 "{}") mock_Decode "MX" start
           {| Summary := "Clear sky"; TemperatureC := 25.5%float;
              FeelsLikeC := 24.0%float |} None).
  vm_compute. reflexivity.
Defined.

(** C6: each of the three failures (no answer, an answer whose status is not
    200, a body that does not decode) makes [FetchWeather] return no data and
    an error; whenever an error is returned there is no data and the message
    of the error is not empty; and in every case exactly one request has
    been sent, so nothing is retried. *)
Theorem FetchWeather_failure network json_Decode (country : string)
    (w : World) :
  let url := requestURL (resolveCoordinates (pkg w) country) in
  let run := FetchWeather network json_Decode country w in
  (forall err,
     network weatherClient (sent w) url = inl err ->
     fst run = (None, Some (Errorf_w "weather API call failed: " err)))
  /\ (forall resp,
        network weatherClient (sent w) url = inr resp ->
        StatusCode resp <> 200 ->
        fst run
        = (None, Some (Errorf_d "weather API returned status " (StatusCode resp))))
  /\ (forall resp err,
        network weatherClient (sent w) url = inr resp ->
        StatusCode resp = 200 ->
        json_Decode (Body resp) = inl err ->
        fst run
        = (None, Some (Errorf_w "failed to parse weather response: " err)))
  /\ (forall e,
        snd (fst run) = Some e ->
        fst (fst run) = None /\ Error e <> "")
  /\ sent (snd run) = (sent w ++ [url])%list.
Proof.
  intros url run. subst run. rewrite FetchWeather_run. cbn [fst snd sent].
  fold url. repeat apply conj.
  - intros err ->. apply outcome_transport.
  - intros resp -> S. apply outcome_status, S.
  - intros resp err -> S D. rewrite (outcome_ok _ _ _ S), D. reflexivity.
  - intros e.
    destruct (outcome_cases json_Decode (pkg w)
                (network weatherClient (sent w) url))
      as [err E|resp E S|resp err E S D|resp a E S D];
      cbn [fst snd]; intros H; try discriminate H;
      injection H as <-; (split; [reflexivity|]).
    + apply Errorf_w_nonempty.
    + apply Errorf_d_nonempty.
    + apply Errorf_w_nonempty.
  - reflexivity.
Qed.

(** C6 at work: a server down, a server answering 500 and an empty body each
    give no data and an error, after one request. *)
Lemma FetchWeather_failure_witness :
  fst (FetchWeather unreachable mock_Decode "US" start)
    = (None, Some (wrapError "weather API call failed: dial tcp: i/o timeout"
                     (errorString "dial tcp: i/o timeout")))
  /\ fst (FetchWeather (answering 500 "oops") mock_Decode "US" start)
    = (None, Some (errorString "weather API returned status 500"))
  /\ fst (FetchWeather (answering 200 "") mock_Decode "US" start)
    = (None, Some (wrapError "failed to parse weather response: EOF"
                     (errorString "EOF")))
  /\ (fst (fst (FetchWeather (answering 500 "oops") mock_Decode "US" start)) = None
      /\ Error (errorString "weather API returned status 500") <> "").
Proof.
  repeat apply conj.
  - apply (proj1 (FetchWeather_failure unreachable mock_Decode "US" start)
             (errorString "dial tcp: i/o timeout")).
    reflexivity.
  - apply (proj1 (proj2 (FetchWeather_failure (answering 500 "oops")
                           mock_Decode "US" start))
             {| StatusCode := 500; Body := "oops" |});
      [reflexivity|discriminate].
  - apply (proj1 (proj2 (proj2 (FetchWeather_failure (answering 200 "")
                                  mock_Decode "US" start)))
             {| StatusCode := 200; Body := "" |} (errorString "EOF"));
      reflexivity.
  - apply (proj1 (proj2 (proj2 (proj2 (FetchWeather_failure (answering 500 "oops")
                                         mock_Decode "US" start))))
             (errorString "weather API returned status 500")).
    vm_compute. reflexivity.
  - apply (proj1 (proj2 (proj2 (proj2 (FetchWeather_failure (answering 500 "oops")
                                         mock_Decode "US" start))))
             (errorString "weather API returned status 500")).
    vm_compute. reflexivity.
Defined.


(** * Further properties of the code *)

(** ** Numbers written by [%.4f] *)

Lemma is_digit_pretty_N_char x : is_digit (pretty_N_char x) = true.
Proof. unfold pretty_N_char. repeat case_match; reflexivity. Qed.

Lemma pretty_N_go_digits x s :
  all_digits s = true -> all_digits (pretty_N_go x s) = true.
Proof.
  revert s. induction (N.lt_wf_0 x) as [x _ IH]; intros s Hs.
  destruct (decide (x = 0)%N) as [->|Hx].
  - rewrite pretty_N_go_0. exact Hs.
  - rewrite pretty_N_go_step by lia. apply IH.
    + apply N.div_lt; lia.
    + cbn [all_digits]. rewrite is_digit_pretty_N_char. exact Hs.
Qed.

Lemma pretty_N_go_length_ge x s :
  (String.length s <= String.length (pretty_N_go x s))%nat.
Proof.
  revert s. induction (N.lt_wf_0 x) as [x _ IH]; intros s.
  destruct (decide (x = 0)%N) as [->|Hx].
  - rewrite pretty_N_go_0. lia.
  - rewrite pretty_N_go_step by lia.
    etrans; [|apply IH; apply N.div_lt; lia]. cbn [String.length]. lia.
Qed.

Lemma pretty_N_go_length_le (k : nat) x s :
  (x < 10 ^ N.of_nat k)%N ->
  (String.length (pretty_N_go x s) <= String.length s + k)%nat.
Proof.
  revert x s. induction k as [|k IH]; intros x s Hx.
  - assert (x = 0%N) as -> by (simpl in Hx; lia). rewrite pretty_N_go_0. lia.
  - destruct (decide (x = 0)%N) as [->|Hx0].
    + rewrite pretty_N_go_0. lia.
    + rewrite pretty_N_go_step by lia.
      etrans; [apply IH|cbn [String.length]; lia].
      apply N.Div0.div_lt_upper_bound.
      rewrite Nat2N.inj_succ, N.pow_succ_r' in Hx. lia.
Qed.

Lemma pretty_Z_digits (z : Z) :
  0 <= z -> all_digits (pretty z) = true /\ pretty z <> "".
Proof.
  intros Hz. destruct z as [|p|p]; [split; [reflexivity|discriminate]| |lia].
  change (pretty (Z.pos p)) with (pretty (N.pos p)).
  unfold pretty, pretty_N. destruct (decide (N.pos p = 0%N)) as [E|_]; [discriminate E|].
  split.
  - apply pretty_N_go_digits. reflexivity.
  - rewrite pretty_N_go_step by lia. intros E.
    pose proof (pretty_N_go_length_ge (N.pos p `div` 10)
                  (String (pretty_N_char (N.pos p `mod` 10)) "")) as L.
    rewrite E in L. cbn [String.length] in L. lia.
Qed.

Lemma pretty_Z_length (k : nat) (z : Z) :
  (0 < k)%nat -> 0 <= z < 10 ^ Z.of_nat k ->
  (String.length (pretty z) <= k)%nat.
Proof.
  intros Hk [Hz Hlt]. destruct z as [|p|p]; [cbn; lia| |lia].
  change (pretty (Z.pos p)) with (pretty (N.pos p)).
  unfold pretty, pretty_N. destruct (decide (N.pos p = 0%N)) as [E|_]; [discriminate E|].
  apply (pretty_N_go_length_le k (N.pos p) "").
  apply N2Z.inj_lt. rewrite N2Z.inj_pow, nat_N_Z. exact Hlt.
Qed.

Lemma append_cons a s t : String a s +:+ t = String a (s +:+ t).
Proof. reflexivity. Qed.

Lemma append_empty t : "" +:+ t = t.
Proof. reflexivity. Qed.

Lemma zeros_S n : zeros (S n) = String "0" (zeros n).
Proof. reflexivity. Qed.

Lemma all_digits_app s t :
  all_digits (s +:+ t) = all_digits s && all_digits t.
Proof.
  induction s as [|a s IH]; [reflexivity|].
  rewrite append_cons. cbn [all_digits]. rewrite IH. apply andb_assoc.
Qed.

Lemma all_digits_zeros n : all_digits (zeros n) = true.
Proof.
  induction n as [|n IH]; [reflexivity|].
  rewrite zeros_S. cbn [all_digits]. rewrite IH. reflexivity.
Qed.

Lemma length_zeros n : String.length (zeros n) = n.
Proof.
  induction n as [|n IH]; [reflexivity|].
  rewrite zeros_S. cbn [String.length]. by rewrite IH.
Qed.

Lemma string_length_app s t :
  String.length (s +:+ t) = (String.length s + String.length t)%nat.
Proof.
  induction s as [|a s IH]; [reflexivity|].
  rewrite append_cons. cbn [String.length]. by rewrite IH.
Qed.

Lemma is_digit_not_dot a : is_digit a = true -> Ascii.eqb a "." = false.
Proof.
  destruct a as [[] [] [] [] [] [] [] []]; try reflexivity; discriminate.
Qed.

Lemma split_at_dot_digits i f :
  all_digits i = true -> split_at_dot (i +:+ "." +:+ f) = Some (i, f).
Proof.
  induction i as [|a i IH]; [reflexivity|].
  rewrite append_cons. cbn [all_digits split_at_dot].
  intros [Ha Hi]%andb_true_iff.
  rewrite (is_digit_not_dot _ Ha), (IH Hi). reflexivity.
Qed.

Lemma four_decimals_unsigned i f :
  i <> "" -> all_digits i = true ->
  String.length f = 4%nat -> all_digits f = true ->
  four_decimals (i +:+ "." +:+ f) = true.
Proof.
  intros Hne Hi Hlen Hf. unfold four_decimals.
  assert ((match i +:+ "." +:+ f with
           | String "-" s' => s'
           | _ => i +:+ "." +:+ f
           end) = i +:+ "." +:+ f) as ->.
  { destruct i as [|a i]; [done|]. cbn [all_digits] in Hi.
    apply andb_true_iff in Hi as [Ha _]. rewrite append_cons.
    destruct a as [[] [] [] [] [] [] [] []]; try reflexivity; discriminate Ha. }
  rewrite (split_at_dot_digits _ _ Hi), Hi, Hlen, Hf.
  destruct i; [done|reflexivity].
Qed.

Lemma four_decimals_signed i f :
  i <> "" -> all_digits i = true ->
  String.length f = 4%nat -> all_digits f = true ->
  four_decimals ("-" +:+ i +:+ "." +:+ f) = true.
Proof.
  intros Hne Hi Hlen Hf. unfold four_decimals.
  rewrite append_cons, append_empty.
  rewrite (split_at_dot_digits _ _ Hi), Hi, Hlen, Hf.
  destruct i; [done|reflexivity].
Qed.

Lemma fixed_point_four_decimals neg n :
  0 <= n -> four_decimals (fixed_point 4 neg n) = true.
Proof.
  intros Hn. unfold fixed_point.
  change (10 ^ Z.of_nat 4) with 10000.
  assert (0 <= n `div` 10000) as Hq by (apply Z.div_pos; lia).
  assert (0 <= n `mod` 10000 < 10000) as Hr by (apply Z.mod_pos_bound; lia).
  destruct (pretty_Z_digits _ Hq) as [Hqd Hqn].
  destruct (pretty_Z_digits _ (proj1 Hr)) as [Hrd _].
  pose proof (pretty_Z_length 4 (n `mod` 10000) ltac:(lia) Hr) as Hlen.
  set (frac := pretty (n `mod` 10000)) in *.
  assert (String.length (zeros (4 - String.length frac) +:+ frac) = 4%nat) as L.
  { rewrite string_length_app, length_zeros. lia. }
  assert (all_digits (zeros (4 - String.length frac) +:+ frac) = true) as D.
  { rewrite all_digits_app, all_digits_zeros. exact Hrd. }
  destruct neg.
  - by apply four_decimals_signed.
  - by apply four_decimals_unsigned.
Qed.

Lemma round_half_even_nonneg n d : 0 <= n -> 0 < d -> 0 <= round_half_even n d.
Proof.
  intros Hn Hd. unfold round_half_even.
  assert (0 <= n `div` d) by (apply Z.div_pos; lia).
  destruct (Z.compare _ _); [destruct (Z.even _)|..]; lia.
Qed.

Lemma scaled_decimal_nonneg prec m e : 0 <= scaled_decimal prec m e.
Proof.
  unfold scaled_decimal. destruct (Z.leb_spec 0 e).
  - assert (0 <= 2 ^ e) by (apply Z.pow_nonneg; lia).
    assert (0 <= 10 ^ Z.of_nat prec) by (apply Z.pow_nonneg; lia).
    nia.
  - apply round_half_even_nonneg.
    + assert (0 <= 10 ^ Z.of_nat prec) by (apply Z.pow_nonneg; lia). nia.
    + apply Z.pow_pos_nonneg; lia.
Qed.

Lemma Prim2SF_finite x :
  is_finite x = true ->
  (exists s, Prim2SF x = S754_zero s) \/ (exists s m e, Prim2SF x = S754_finite s m e).
Proof.
  unfold is_finite. intros H. apply negb_true_iff, orb_false_iff in H as [Hn Hi].
  unfold Prim2SF. rewrite Hn, Hi.
  destruct (is_zero x); [eauto|].
  destruct (Z.frexp x) as [r ex].
  destruct (shr_fexp _ _ _ _ _) as [shr e'].
  destruct (shr_m shr); eauto 10.
Qed.

Lemma Sprintf_f_four_decimals x :
  is_finite x = true -> four_decimals (Sprintf_f 4 x) = true.
Proof.
  intros H. unfold Sprintf_f.
  destruct (Prim2SF_finite x H) as [[s ->]|(s & m & e & ->)].
  - apply fixed_point_four_decimals. lia.
  - apply fixed_point_four_decimals, scaled_decimal_nonneg.
Qed.

Lemma Sprintf_f_nan prec x : is_nan x = true -> Sprintf_f prec x = "NaN".
Proof. intros H. unfold Sprintf_f, Prim2SF. rewrite H. reflexivity. Qed.

(** X3: for any coordinates whose latitude and longitude are finite
    numbers, not only those of the table, the URL carries both with exactly
    four decimal digits; a latitude that is not a number is written NaN, and
    the infinities +Inf and -Inf, so the URL then has no decimal number at
    that place. *)
Theorem requestURL_four_decimals (coords : Coordinates) :
  (is_finite (Lat coords) = true -> is_finite (Lon coords) = true ->
   exists lat lon,
     requestURL coords
     = "https://api.open-meteo.com/v1/forecast?latitude=" +:+ lat
         +:+ "&longitude=" +:+ lon
         +:+ "&current=temperature_2m,apparent_temperature,weather_code"
     /\ four_decimals lat = true /\ four_decimals lon = true)
  /\ (is_nan (Lat coords) = true ->
      requestURL coords
      = "https://api.open-meteo.com/v1/forecast?latitude=NaN&longitude="
          +:+ Sprintf_f 4 (Lon coords)
          +:+ "&current=temperature_2m,apparent_temperature,weather_code")
  /\ Sprintf_f 4 infinity = "+Inf"
  /\ Sprintf_f 4 neg_infinity = "-Inf".
Proof.
  split; [|split; [|split]].
  - intros Hlat Hlon.
    exists (Sprintf_f 4 (Lat coords)), (Sprintf_f 4 (Lon coords)).
    split; [reflexivity|]. split; by apply Sprintf_f_four_decimals.
  - intros H. unfold requestURL. rewrite (Sprintf_f_nan _ _ H). reflexivity.
  - vm_compute. reflexivity.
  - vm_compute. reflexivity.
Qed.

(** X3 at work: London, and a point just south of the equator whose
    latitude rounds to zero and keeps its sign. *)
Lemma requestURL_four_decimals_witness :
  (exists lat lon,
     requestURL {| Lat := 51.5074%float; Lon := (-0.1278)%float |}
     = "https://api.open-meteo.com/v1/forecast?latitude=" +:+ lat
         +:+ "&longitude=" +:+ lon
         +:+ "&current=temperature_2m,apparent_temperature,weather_code"
     /\ four_decimals lat = true /\ four_decimals lon = true)
  /\ requestURL {| Lat := (-0.00001)%float; Lon := 9.5%float |}
     = "https://api.open-meteo.com/v1/forecast?latitude=-0.0000&longitude=9.5000&current=temperature_2m,apparent_temperature,weather_code".
Proof.
  split.
  - apply (proj1 (requestURL_four_decimals
                    {| Lat := 51.5074%float; Lon := (-0.1278)%float |}));
      reflexivity.
  - vm_compute. reflexivity.
Defined.

(** ** Several calls in a row *)

Lemma requestURL_known country :
  requestURL (resolveCoordinates feeds_init country) ∈ knownURLs.
Proof.
  unfold knownURLs.
  destruct (resolveCoordinates_cases country) as [->|[->| ->]].
  - apply list_elem_of_here.
  - apply list_elem_of_further, list_elem_of_here.
  - do 2 apply list_elem_of_further. apply list_elem_of_here.
Qed.

(** X1: after any [n] calls of [FetchWeather], with any countries, networks
    and decoders, the package variables are what they were and exactly [n]
    requests have been added to those already sent, one per call, each to
    the URL of some country; from the initial package each of them is one of
    the three URLs of the table. *)
Theorem calls_invariant (n : nat) (w w' : World) :
  calls n w w' ->
  pkg w' = pkg w
  /\ exists urls,
       sent w' = (sent w ++ urls)%list
       /\ length urls = n
       /\ Forall (fun url => exists country,
                    url = requestURL (resolveCoordinates (pkg w) country)) urls
       /\ (pkg w = feeds_init -> Forall (fun url => url ∈ knownURLs) urls).
Proof.
  induction 1 as [w|n w w' network json_Decode country _ (Hpkg & urls & Hs & Hl & Hc & Hk)].
  - split; [reflexivity|]. exists []. rewrite app_nil_r.
    repeat split; auto using Forall_nil_2.
  - rewrite FetchWeather_run. cbn [snd pkg sent]. split; [exact Hpkg|].
    exists (urls ++ [requestURL (resolveCoordinates (pkg w) country)])%list.
    rewrite Hs, Hpkg, <- app_assoc. repeat split.
    + rewrite length_app, Hl. cbn. lia.
    + apply Forall_app. split; [exact Hc|].
      apply Forall_singleton. by exists country.
    + intros E. apply Forall_app. split; [apply Hk, E|].
      apply Forall_singleton. rewrite E. apply requestURL_known.
Qed.

(** X1 at work: a call for MX that fails, then a call for an unknown
    country that succeeds. *)
Lemma calls_invariant_witness :
  pkg (snd (FetchWeather (answering 200 "{}") mock_Decode "ZZ"
              (snd (FetchWeather unreachable mock_Decode "MX" start))))
  = pkg start
  /\ exists urls,
       sent (snd (FetchWeather (answering 200 "{}") mock_Decode "ZZ"
                    (snd (FetchWeather unreachable mock_Decode "MX" start))))
       = (sent start ++ urls)%list
       /\ length urls = 2%nat
       /\ Forall (fun url => exists country,
                    url = requestURL (resolveCoordinates (pkg start) country)) urls
       /\ (pkg start = feeds_init -> Forall (fun url => url ∈ knownURLs) urls).
Proof.
  apply (calls_invariant 2 start).
  apply calls_S, calls_S, calls_O.
Defined.

(** ** Telling the failures apart *)

Lemma failure_of_outcome json_Decode p r e :
  snd (outcome json_Decode p r) = Some e ->
  exists f, failure_of json_Decode r = Some f /\ failure_message f (Error e).
Proof.
  unfold outcome, failure_of. destruct r as [err|resp].
  - intros [= <-]. exists Transport. split; [reflexivity|]. by exists err.
  - destruct (negb _).
    + intros [= <-]. exists (HTTPStatus (StatusCode resp)). by split.
    + destruct (json_Decode (Body resp)) as [err|a]; [|discriminate].
      intros [= <-]. exists Decode. split; [reflexivity|]. by exists err.
Qed.

(** Names the cause of a message that has one. *)
Local Ltac open_cause M :=
  lazymatch type of M with
  | ex _ => let err := fresh "err" in destruct M as [err M]
  | _ => idtac
  end.

Lemma failure_message_inj f1 f2 msg :
  failure_message f1 msg -> failure_message f2 msg -> f1 = f2.
Proof.
  destruct f1 as [|c1|], f2 as [|c2|]; cbn [failure_message];
    intros M1 M2; try reflexivity;
    open_cause M1; open_cause M2;
    rewrite M1 in M2; repeat rewrite append_cons in M2;
    rewrite !append_empty in M2; try discriminate M2.
  injection M2 as M2. f_equal. exact (inj pretty _ _ M2).
Qed.

(** X4: the message of the error tells the failure: two failed runs, of any
    countries in any worlds, whose errors have the same message failed the
    same way (no answer, a status other than 200, a body that does not
    decode) and, for a status failure, on the same status code. *)
Theorem failure_read_from_message
    network1 json_Decode1 (country1 : string) (w1 : World)
    network2 json_Decode2 (country2 : string) (w2 : World)
    (e1 e2 : error) :
  snd (fst (FetchWeather network1 json_Decode1 country1 w1)) = Some e1 ->
  snd (fst (FetchWeather network2 json_Decode2 country2 w2)) = Some e2 ->
  Error e1 = Error e2 ->
  failure_of json_Decode1
    (network1 weatherClient (sent w1)
       (requestURL (resolveCoordinates (pkg w1) country1)))
  = failure_of json_Decode2
      (network2 weatherClient (sent w2)
         (requestURL (resolveCoordinates (pkg w2) country2))).
Proof.
  rewrite !FetchWeather_run. cbn [fst].
  intros (f1 & -> & M1)%failure_of_outcome (f2 & -> & M2)%failure_of_outcome E.
  rewrite E in M1. f_equal. exact (failure_message_inj _ _ _ M1 M2).
Qed.

(** X4 at work: two servers that answer 500, to different requests and
    with different bodies. *)
Lemma failure_read_from_message_witness :
  failure_of mock_Decode
    (answering 500 "oops" weatherClient (sent start)
       (requestURL (resolveCoordinates (pkg start) "US")))
  = failure_of mock_Decode
      (answering 500 "down" weatherClient (sent start)
         (requestURL (resolveCoordinates (pkg start) "MX"))).
Proof.
  apply (failure_read_from_message
           (answering 500 "oops") mock_Decode "US" start
           (answering 500 "down") mock_Decode "MX" start
           (errorString "weather API returned status 500")
           (errorString "weather API returned status 500"));
    vm_compute; reflexivity.
Defined.

(** ** What [FetchWeather] asks of its environment *)

Lemma outcome_decoders json_Decode1 json_Decode2 p r :
  (forall resp, r = inr resp -> StatusCode resp = 200 ->
                json_Decode1 (Body resp) = json_Decode2 (Body resp)) ->
  outcome json_Decode1 p r = outcome json_Decode2 p r.
Proof.
  intros H. destruct r as [err|resp]; [reflexivity|].
  destruct (decide (StatusCode resp = 200)) as [E|E].
  - rewrite !(outcome_ok _ _ _ E), (H resp eq_refl E). reflexivity.
  - rewrite !(outcome_status _ _ _ E). reflexivity.
Qed.

(** X5: [FetchWeather] asks the network one thing only, with a client whose
    timeout is ten seconds, and asks the decoder about the body of an answer
    of status 200 only: two networks that agree for such a client, and two
    decoders that agree on that body, give the same run. The timeout fits
    the 64-bit [time.Duration]. *)
Theorem FetchWeather_environment network1 network2 json_Decode1 json_Decode2
    (country : string) (w : World) :
  (forall client log url,
     Timeout client = 10000000000 ->
     network1 client log url = network2 client log url) ->
  (forall resp,
     network1 weatherClient (sent w)
       (requestURL (resolveCoordinates (pkg w) country)) = inr resp ->
     StatusCode resp = 200 ->
     json_Decode1 (Body resp) = json_Decode2 (Body resp)) ->
  FetchWeather network1 json_Decode1 country w
  = FetchWeather network2 json_Decode2 country w
  /\ 0 < Timeout weatherClient < 2 ^ 63.
Proof.
  intros Hn Hd. split; [|split; reflexivity].
  rewrite !FetchWeather_run. cbv zeta.
  rewrite <- (Hn weatherClient _ _ eq_refl).
  f_equal. apply outcome_decoders, Hd.
Qed.

(** X5 at work: a network that answers only a ten-second client, and a
    decoder that knows only the body received. *)
Lemma FetchWeather_environment_witness :
  FetchWeather (answering 200 "{}") mock_Decode "CA" start
  = FetchWeather patient strict_Decode "CA" start
  /\ 0 < Timeout weatherClient < 2 ^ 63.
Proof.
  apply (FetchWeather_environment (answering 200 "{}") patient
           mock_Decode strict_Decode "CA" start).
  - intros client log url H. unfold patient. rewrite H. reflexivity.
  - intros resp [= <-] _. reflexivity.
Defined.

(** ** The table and the tests *)

(** X6: whatever the country, known or not, the coordinates it resolves to
    pass the check of the tests for North America (latitude from 10 to 60,
    longitude from -125 to -60); those of an unknown country also pass the
    check for New York (latitude from 38 to 42, longitude from -76 to
    -72). *)
Theorem resolveCoordinates_North_America (country : string) :
  outsideNorthAmerica (resolveCoordinates feeds_init country) = false
  /\ (naCountryCoordinates feeds_init !! country = None ->
      outsideNewYork (resolveCoordinates feeds_init country) = false).
Proof.
  split.
  - destruct (resolveCoordinates_cases country) as [->|[->| ->]]; reflexivity.
  - intros E. rewrite (resolveCoordinates_fallback _ _ E), resolveCoordinates_US.
    reflexivity.
Qed.

(** X6 at work: an unknown country. *)
Lemma resolveCoordinates_North_America_witness :
  outsideNewYork (resolveCoordinates feeds_init "BR") = false.
Proof.
  apply (proj2 (resolveCoordinates_North_America "BR")). reflexivity.
Defined.

Lemma invalidCoordinates_nil country coords :
  invalidCoordinates country coords = [] <->
  ((Lat coords <? -90)%float || (90 <? Lat coords)%float = false)
  /\ ((Lon coords <? -180)%float || (180 <? Lon coords)%float = false).
Proof.
  unfold invalidCoordinates.
  destruct (_ || _), (_ || _); cbn [app]; split;
    (intros [? ?] || intros ?); try discriminate; auto.
Qed.

Lemma flat_map_nil {A B} (f : A -> list B) (l : list A) :
  flat_map f l = [] <-> Forall (fun x => f x = []) l.
Proof.
  induction l as [|x l IH]; cbn [flat_map].
  - split; auto using Forall_nil_2.
  - rewrite Forall_cons, <- IH. split.
    + intros [? ?]%app_eq_nil. auto.
    + intros [-> ->]. reflexivity.
Qed.

(** X7: [TestAllCountriesHaveValidCoordinates] reports no error exactly when
    no entry of the table has a latitude that compares below -90 or above 90
    or a longitude that compares below -180 or above 180. The initial table
    passes; so does a table whose latitude is not a number, since every
    comparison with it is false, although that latitude is not in range. *)
Theorem TestAllCountriesHaveValidCoordinates_passes (p : Package) :
  (TestAllCountriesHaveValidCoordinates p = [] <->
   map_Forall (fun _ coords =>
       ((Lat coords <? -90)%float || (90 <? Lat coords)%float = false)
       /\ ((Lon coords <? -180)%float || (180 <? Lon coords)%float = false))
     (naCountryCoordinates p))
  /\ TestAllCountriesHaveValidCoordinates feeds_init = []
  /\ TestAllCountriesHaveValidCoordinates nanPackage = []
  /\ map_Forall (fun _ coords => inRange coords = false)
       (naCountryCoordinates nanPackage).
Proof.
  assert (forall q,
    TestAllCountriesHaveValidCoordinates q = [] <->
    map_Forall (fun _ coords =>
        ((Lat coords <? -90)%float || (90 <? Lat coords)%float = false)
        /\ ((Lon coords <? -180)%float || (180 <? Lon coords)%float = false))
      (naCountryCoordinates q)) as H.
  { intros q. unfold TestAllCountriesHaveValidCoordinates.
    rewrite flat_map_nil, map_Forall_to_list.
    apply Forall_iff. intros [k c]. apply invalidCoordinates_nil. }
  split; [apply H|]. split; [|split].
  - apply H. intros k c E.
    destruct (lookup_coordinates_cases _ _ E) as [->|[->| ->]];
      split; reflexivity.
  - apply H. intros k c E. unfold nanPackage in E.
    cbn [naCountryCoordinates] in E.
    apply lookup_singleton_Some in E as [_ <-]. split; reflexivity.
  - intros k c E. unfold nanPackage in E. cbn [naCountryCoordinates] in E.
    apply lookup_singleton_Some in E as [_ <-]. reflexivity.
Qed.

(** ** Reading a summary back *)

Lemma values_NoDup_inj {K V} (l : list (K * V)) k1 k2 v :
  NoDup (l.*2) -> (k1, v) ∈ l -> (k2, v) ∈ l -> k1 = k2.
Proof.
  induction l as [|[k v'] l IH]; [by intros _ ?%elem_of_nil|].
  rewrite fmap_cons, NoDup_cons. cbn [snd]. intros [Hv Hl].
  rewrite !elem_of_cons. intros [E1|H1] [E2|H2].
  - congruence.
  - injection E1 as -> ->. destruct Hv.
    apply (list_elem_of_fmap_2 snd) in H2. exact H2.
  - injection E2 as -> ->. destruct Hv.
    apply (list_elem_of_fmap_2 snd) in H1. exact H1.
  - by apply IH.
Qed.

(** The descriptions of the table are pairwise different, and none of them
    is the word used for the codes outside the table. *)
Lemma descriptions_NoDup :
  NoDup ("Unknown" :: weatherCodeDescriptions_literal.*2).
Proof. apply (bool_decide_unpack _). vm_compute. reflexivity. Qed.

Lemma describeWeatherCode_Unknown code :
  describeWeatherCode feeds_init code = "Unknown" <->
  weatherCodeDescriptions feeds_init !! code = None.
Proof.
  split; [|apply describeWeatherCode_absent].
  destruct (weatherCodeDescriptions feeds_init !! code) as [d|] eqn:E;
    [|reflexivity].
  rewrite (describeWeatherCode_found _ _ _ E). intros ->.
  apply lookup_descriptions, (list_elem_of_fmap_2 snd) in E.
  pose proof descriptions_NoDup as [H _]%NoDup_cons. contradiction.
Qed.

(** X8: the summary tells the weather code: two codes with the same
    description are the same code, unless both are outside the table, in
    which case the description of both is Unknown. *)
Theorem describeWeatherCode_reads_back (code1 code2 : Z) :
  describeWeatherCode feeds_init code1 = describeWeatherCode feeds_init code2 ->
  code1 = code2
  \/ (weatherCodeDescriptions feeds_init !! code1 = None
      /\ weatherCodeDescriptions feeds_init !! code2 = None
      /\ describeWeatherCode feeds_init code1 = "Unknown").
Proof.
  intros H.
  destruct (weatherCodeDescriptions feeds_init !! code1) as [d1|] eqn:E1.
  - left. pose proof (describeWeatherCode_found _ _ _ E1) as D1.
    destruct (weatherCodeDescriptions feeds_init !! code2) as [d2|] eqn:E2.
    + pose proof (describeWeatherCode_found _ _ _ E2) as D2.
      assert (d1 = d2) as <- by congruence.
      apply lookup_descriptions in E1, E2.
      pose proof descriptions_NoDup as [_ N]%NoDup_cons.
      exact (values_NoDup_inj _ _ _ _ N E1 E2).
    + apply describeWeatherCode_Unknown in E2.
      rewrite E2 in H. apply describeWeatherCode_Unknown in H. congruence.
  - right. pose proof (proj2 (describeWeatherCode_Unknown code1) E1) as D1.
    repeat split; auto.
    apply describeWeatherCode_Unknown. congruence.
Qed.

(** X8 at work: two codes outside the table. *)
Lemma describeWeatherCode_reads_back_witness :
  999 = -1
  \/ (weatherCodeDescriptions feeds_init !! 999 = None
      /\ weatherCodeDescriptions feeds_init !! (-1) = None
      /\ describeWeatherCode feeds_init 999 = "Unknown").
Proof.
  apply (describeWeatherCode_reads_back 999 (-1)). reflexivity.
Defined.

Lemma weatherCodes_bounds :
  Forall (fun kv : Z * string => 0 <= kv.1 <= 99) weatherCodeDescriptions_literal.
Proof.
  unfold weatherCodeDescriptions_literal.
  repeat (apply Forall_cons; split; [cbn [fst]; lia|]). apply Forall_nil_2.
Qed.

(** X9: a weather code below 0 or above 99 is outside the table, whatever
    its size: its description is Unknown, and the description of a code is
    Unknown only when the code is outside the table. *)
Theorem describeWeatherCode_out_of_bounds (code : Z) :
  code < 0 \/ 99 < code ->
  describeWeatherCode feeds_init code = "Unknown"
  /\ (forall code',
        describeWeatherCode feeds_init code' = "Unknown" <->
        weatherCodeDescriptions feeds_init !! code' = None).
Proof.
  intros H. split; [|apply describeWeatherCode_Unknown].
  destruct (weatherCodeDescriptions feeds_init !! code) as [d|] eqn:E.
  - apply lookup_descriptions in E.
    pose proof (proj1 (Forall_forall _ _) weatherCodes_bounds _ E) as B.
    cbn [fst] in B. lia.
  - apply describeWeatherCode_absent, E.
Qed.

(** X9 at work: the largest 64-bit integer, and a negative code. *)
Lemma describeWeatherCode_out_of_bounds_witness :
  describeWeatherCode feeds_init 9223372036854775807 = "Unknown"
  /\ describeWeatherCode feeds_init (-3) = "Unknown".
Proof.
  split.
  - apply (proj1 (describeWeatherCode_out_of_bounds 9223372036854775807
                    ltac:(right; lia))).
  - apply (proj1 (describeWeatherCode_out_of_bounds (-3) ltac:(left; lia))).
Defined.

(** ** The round trip through JSON *)







